(** * ts/torch_handler/base_handler.py: the default TorchServe handler

    A shallow embedding of [BaseHandler]: its attributes are a record, its
    methods are computations in a state-and-exception monad over that record,
    and every call that leaves the handler (torch, importlib, os.path, the
    compiled binding, ts.utils.util) is answered by a [World] of oracles and
    recorded in a trace, in program order. *)

From Stdlib Require Import String Ascii List ZArith Bool Lia.
From Stdlib Require Import DecimalString.
Import ListNotations.

Set Warnings "-register-all".
Local Open Scope string_scope.
Local Open Scope list_scope.

(** ** Python values that cross the handler *)

(** A reference to an object owned by a collaborator: an imported module, a
    class, an nn.Module, a state dict, the compiled binding, a model handle. *)
Definition object := nat.

(** Request payloads and [tolist()] results. *)
Inductive pyval : Type :=
| PyNone
| PyInt (z : Z)
| PyStr (s : string)
| PyList (items : list pyval).

(** A torch tensor: what it holds and the device it is placed on. *)
Record tensor : Type := Tensor { contents : pyval; placement : string }.

(** An extra argument of [inference(data, *args, **kwargs)]. *)
Inductive pyarg : Type :=
| ArgTensor (t : tensor)
| ArgValue (v : pyval).

(** ** The deployment context *)

(** [manifest['model']]: [serializedFile] is read with [[]], [modelFile] with
    [.get('modelFile', '')]. *)
Record Manifest : Type := {
  serializedFile : string;
  modelFile : option string
}.

(** [context.system_properties]. [gpu_id] is read with [.get], and may be
    missing; [model_dir] and [torch_api_type] are taken to be there. *)
Record SystemProperties : Type := {
  model_dir : string;
  gpu_id : option Z;
  prop_torch_api_type : string
}.

Record Context : Type := {
  system_properties : SystemProperties;
  ctx_manifest : Manifest
}.

(** ** Exceptions *)

(** An exception raised inside a collaborator and propagated unchanged. *)
Inductive ext_exn : Type := ExtExn (cls msg : string).

Inductive exn : Type :=
| MissingArtifact
    (* line 47: RuntimeError("Missing the model.pt file") *)
| MissingClassDefinitionFile
    (* line 91: RuntimeError("Missing the model.py file") *)
| AmbiguousModelDefinition (found : list object)
    (* line 96: ValueError("Expected only one class as model definition. {}") *)
| UnsupportedCombination
    (* line 66: Exception("Eager models are not supported using CPP API") *)
| UnsupportedExecutionAPI
    (* line 75: Exception("Only Python and CPP APIs are supported.") *)
| UnsupportedArguments
    (* line 125: Exception("Keyword arguments are not supported by CPP API. ...") *)
| InterpreterError (what : string)
    (* TypeError, AttributeError or IndexError raised by the interpreter *)
| Propagated (e : ext_exn).

Inductive outcome (A : Type) : Type :=
| Returned (a : A)
| Raised (e : exn).
Arguments Returned {A} a.
Arguments Raised {A} e.

(** ** Calls that leave the handler *)

Inductive event : Type :=
| EvCudaIsAvailable
| EvTorchDevice (name : string)
| EvIsFile (path : string)
| EvJitLoad (path : string) (map_loc : option string)
| EvImportModule (name : string)
| EvListClasses (module : object)
| EvTorchLoad (path : string) (map_loc : option string)
| EvConstruct (cls : object) (args : list pyarg)
| EvLoadStateDict (model state_dict : object)
| EvModelTo (model : object) (dev : option string)
| EvModelEval (model : object)
| EvCppExtensionLoad (name : string) (sources : list string)
| EvCppLoadModel (binding : object) (path : string) (map_loc : option string)
    (dev : string)
| EvReadLabelFile (path : string)
| EvCallModel (model : object) (args : list pyarg) (kwargs : list (string * pyarg))
| EvRunModel (binding : object) (handle : option object) (params : list pyarg).

(** The answers of the collaborators. A call that can raise answers in
    [ext_exn + _]. *)
Record World : Type := {
  cuda_is_available : bool;
  (* torch.device(name): the device, written as its str(); raises on a name
     that is no device, such as "cuda:None" *)
  torch_device : string -> ext_exn + string;
  (* pathlib.Path(__file__).parent.absolute() *)
  source_path : string;
  os_path_isfile : string -> bool;
  torch_jit_load : string -> option string -> ext_exn + object;
  importlib_import_module : string -> ext_exn + object;
  (* ts/utils/util.py, not part of this file *)
  list_classes_from_module : object -> list object;
  torch_load : string -> option string -> ext_exn + object;
  construct : object -> ext_exn + object;
  load_state_dict : object -> object -> ext_exn + unit;
  model_to : object -> option string -> ext_exn + unit;
  model_eval : object -> ext_exn + unit;
  cpp_extension_load : string -> list string -> ext_exn + object;
  cpp_load_model : object -> string -> option string -> string -> ext_exn + object;
  read_label_file : string -> ext_exn + list (string * string);
  model_call : object -> list pyarg -> list (string * pyarg) -> ext_exn + tensor;
  cpp_run_model : object -> option object -> list pyarg -> ext_exn + tensor
}.

(** ** The handler object *)

(** The attributes assigned in [__init__] (lines 23-31). [device] holds the
    device [torch.device] returned, written as its [str()]. *)
Record BaseHandler : Type := {
  model : option object;
  mapping : option (list (string * string));
  device : option string;
  initialized : bool;
  context : option Context;
  manifest : option Manifest;
  map_location : option string;
  torch_cpp_python_module : option object;
  torch_api_type : string
}.

Definition __init__ : BaseHandler := {|
  model := None;
  mapping := None;
  device := None;
  initialized := false;
  context := None;
  manifest := None;
  map_location := None;
  torch_cpp_python_module := None;
  torch_api_type := "python"
|}.

Definition set_model (v : option object) (h : BaseHandler) : BaseHandler :=
  {| model := v; mapping := mapping h; device := device h;
     initialized := initialized h; context := context h;
     manifest := manifest h; map_location := map_location h;
     torch_cpp_python_module := torch_cpp_python_module h;
     torch_api_type := torch_api_type h |}.

Definition set_mapping (v : option (list (string * string))) (h : BaseHandler)
  : BaseHandler :=
  {| model := model h; mapping := v; device := device h;
     initialized := initialized h; context := context h;
     manifest := manifest h; map_location := map_location h;
     torch_cpp_python_module := torch_cpp_python_module h;
     torch_api_type := torch_api_type h |}.

Definition set_device (v : option string) (h : BaseHandler) : BaseHandler :=
  {| model := model h; mapping := mapping h; device := v;
     initialized := initialized h; context := context h;
     manifest := manifest h; map_location := map_location h;
     torch_cpp_python_module := torch_cpp_python_module h;
     torch_api_type := torch_api_type h |}.

Definition set_initialized (v : bool) (h : BaseHandler) : BaseHandler :=
  {| model := model h; mapping := mapping h; device := device h;
     initialized := v; context := context h;
     manifest := manifest h; map_location := map_location h;
     torch_cpp_python_module := torch_cpp_python_module h;
     torch_api_type := torch_api_type h |}.

Definition set_context (v : option Context) (h : BaseHandler) : BaseHandler :=
  {| model := model h; mapping := mapping h; device := device h;
     initialized := initialized h; context := v;
     manifest := manifest h; map_location := map_location h;
     torch_cpp_python_module := torch_cpp_python_module h;
     torch_api_type := torch_api_type h |}.

Definition set_manifest (v : option Manifest) (h : BaseHandler) : BaseHandler :=
  {| model := model h; mapping := mapping h; device := device h;
     initialized := initialized h; context := context h;
     manifest := v; map_location := map_location h;
     torch_cpp_python_module := torch_cpp_python_module h;
     torch_api_type := torch_api_type h |}.

Definition set_map_location (v : option string) (h : BaseHandler) : BaseHandler :=
  {| model := model h; mapping := mapping h; device := device h;
     initialized := initialized h; context := context h;
     manifest := manifest h; map_location := v;
     torch_cpp_python_module := torch_cpp_python_module h;
     torch_api_type := torch_api_type h |}.

Definition set_torch_cpp_python_module (v : option object) (h : BaseHandler)
  : BaseHandler :=
  {| model := model h; mapping := mapping h; device := device h;
     initialized := initialized h; context := context h;
     manifest := manifest h; map_location := map_location h;
     torch_cpp_python_module := v;
     torch_api_type := torch_api_type h |}.

Definition set_torch_api_type (v : string) (h : BaseHandler) : BaseHandler :=
  {| model := model h; mapping := mapping h; device := device h;
     initialized := initialized h; context := context h;
     manifest := manifest h; map_location := map_location h;
     torch_cpp_python_module := torch_cpp_python_module h;
     torch_api_type := v |}.

(** ** The monad of method bodies

    A method runs from a handler and the trace so far, and ends with the
    handler and trace it leaves behind together with a value or an exception.
    An exception undoes nothing: the attributes assigned before the [raise]
    stay assigned. *)

Record St : Type := mkSt { self : BaseHandler; trace : list event }.

Definition M (A : Type) : Type := St -> St * outcome A.

Definition ret {A} (a : A) : M A := fun s => (s, Returned a).

Definition raise {A} (e : exn) : M A := fun s => (s, Raised e).

Definition bind {A B} (m : M A) (k : A -> M B) : M B :=
  fun s => match m s with
           | (s', Returned a) => k a s'
           | (s', Raised e) => (s', Raised e)
           end.

Declare Scope py_scope.
Delimit Scope py_scope with py.
Notation "x <- m ;; k" := (bind m (fun x => k))
  (at level 100, m at next level, right associativity) : py_scope.
Notation "m ;;; k" := (bind m (fun _ => k))
  (at level 100, right associativity) : py_scope.
Local Open Scope py_scope.

(** [self.f] *)
Definition attr {A} (f : BaseHandler -> A) : M A :=
  fun s => (s, Returned (f (self s))).

(** [self.f = v] *)
Definition assign (upd : BaseHandler -> BaseHandler) : M unit :=
  fun s => (mkSt (upd (self s)) (trace s), Returned tt).

(** A call to a collaborator that cannot raise. *)
Definition query {A} (ev : event) (answer : A) : M A :=
  fun s => (mkSt (self s) (trace s ++ [ev]), Returned answer).

(** A call to a collaborator that may raise. *)
Definition call {A} (ev : event) (answer : ext_exn + A) : M A :=
  fun s => (mkSt (self s) (trace s ++ [ev]),
            match answer with
            | inr a => Returned a
            | inl e => Raised (Propagated e)
            end).

(** ** Library functions with a fixed meaning *)

(** [s.endswith('/')] *)
Fixpoint endswith_sep (s : string) : bool :=
  match s with
  | EmptyString => false
  | String c EmptyString => Ascii.eqb c "/"%char
  | String _ rest => endswith_sep rest
  end.

(** [os.path.join(a, b)] (posixpath). *)
Definition os_path_join (a b : string) : string :=
  if String.prefix "/" b then b
  else if (a =? "") || endswith_sep a then a ++ b
  else a ++ "/" ++ b.

(** [s.split(".")[0]] *)
Fixpoint split_dot_head (s : string) : string :=
  match s with
  | EmptyString => EmptyString
  | String c rest =>
      if Ascii.eqb c "."%char then EmptyString else String c (split_dot_head rest)
  end.

(** [str(self.device)] *)
Definition str_device (d : option string) : string :=
  match d with Some x => x | None => "None" end.

(** [str(properties.get("gpu_id"))] *)
Definition str_gpu_id (g : option Z) : string :=
  match g with
  | None => "None"
  | Some z => NilZero.string_of_int (Z.to_int z)
  end.

(** Truth value of a string in an [if]. *)
Definition truthy (s : string) : bool := negb (s =? "").

(** [dict.get(key, default)] *)
Definition get_default {A} (o : option A) (d : A) : A :=
  match o with Some a => a | None => d end.

(** [t.to(device)]: the tensor, placed on [device]. *)
Definition tensor_to (t : tensor) (dev : option string) : tensor :=
  match dev with
  | Some d => Tensor (contents t) d
  | None => t
  end.

(** [torch.as_tensor(data, device=dev)]: the data, placed on [dev]. *)
Definition torch_as_tensor (data : pyval) (dev : option string) : tensor :=
  Tensor data (get_default dev "cpu").

(** [if cond: raise e] *)
Definition raise_if (cond : bool) (e : exn) : M unit :=
  if cond then raise e else ret tt.

(** ** The methods of [BaseHandler] *)

Section Methods.

Variable w : World.

Definition torch_cuda_is_available : M bool :=
  query EvCudaIsAvailable (cuda_is_available w).

Definition isfile (path : string) : M bool :=
  query (EvIsFile path) (os_path_isfile w path).

(** [self.model.f(...)]: the attribute must hold an object. *)
Definition the_model : M object :=
  m <- attr model ;;
  match m with
  | Some o => ret o
  | None => raise (InterpreterError "model")
  end.

(** Modelled from the spec: [load_label_mapping] of ts/utils/util.py, which is
    not in this file. The spec says of it: "attempt to load a label-mapping
    file at a fixed path under model_dir; absence of this file is non-fatal:
    mapping remains empty/absent, not an error", and of the file: "optional
    label map, JSON object of string to string". *)
Definition load_label_mapping (mapping_file_path : string)
  : M (option (list (string * string))) :=
  present <- isfile mapping_file_path ;;
  if negb present then ret None
  else
    m <- call (EvReadLabelFile mapping_file_path)
              (read_label_file w mapping_file_path) ;;
    ret (Some m).

(** Lines 85-86. *)
Definition _load_torchscript_model (model_pt_path : string) : M object :=
  ml <- attr map_location ;;
  call (EvJitLoad model_pt_path ml) (torch_jit_load w model_pt_path ml).

(** Lines 88-103. *)
Definition _load_pickled_model (model_dir model_file model_pt_path : string)
  : M object :=
  let model_def_path := os_path_join model_dir model_file in
  present <- isfile model_def_path ;;
  raise_if (negb present) MissingClassDefinitionFile ;;;
  let name := split_dot_head model_file in
  module <- call (EvImportModule name) (importlib_import_module w name) ;;
  model_class_definitions <-
    query (EvListClasses module) (list_classes_from_module w module) ;;
  raise_if (negb (length model_class_definitions =? 1)%nat)
           (AmbiguousModelDefinition model_class_definitions) ;;;
  match model_class_definitions with
  | [] => raise (InterpreterError "list index out of range")
  | model_class :: _ =>
      ml <- attr map_location ;;
      state_dict <- call (EvTorchLoad model_pt_path ml)
                         (torch_load w model_pt_path ml) ;;
      model <- call (EvConstruct model_class []) (construct w model_class) ;;
      call (EvLoadStateDict model state_dict)
           (load_state_dict w model state_dict) ;;;
      ret model
  end.

(** Lines 53-75: the [if]/[elif]/[else] on [self.torch_api_type]. *)
Definition load_by_api (model_dir model_file model_pt_path : string) : M unit :=
  api <- attr torch_api_type ;;
  if api =? "python" then
    (if truthy model_file then
       m <- _load_pickled_model model_dir model_file model_pt_path ;;
       assign (set_model (Some m))
     else
       m <- _load_torchscript_model model_pt_path ;;
       assign (set_model (Some m))) ;;;
    (m <- the_model ;;
     dev <- attr device ;;
     call (EvModelTo m dev) (model_to w m dev)) ;;;
    (m <- the_model ;;
     call (EvModelEval m) (model_eval w m))
  else if api =? "cpp" then
    raise_if (truthy model_file) UnsupportedCombination ;;;
    let cpp_source_path :=
      os_path_join (source_path w) "torch_cpp_python_bindings.cpp" in
    binding <- call (EvCppExtensionLoad "torch_cpp_python_bindings"
                                        [cpp_source_path])
                    (cpp_extension_load w "torch_cpp_python_bindings"
                                        [cpp_source_path]) ;;
    assign (set_torch_cpp_python_module (Some binding)) ;;;
    ml <- attr map_location ;;
    dev <- attr device ;;
    handle <- call (EvCppLoadModel binding model_pt_path ml (str_device dev))
                   (cpp_load_model w binding model_pt_path ml (str_device dev)) ;;
    assign (set_model (Some handle))
  else
    raise UnsupportedExecutionAPI.

(** Lines 36-47: device, manifest and the check of the serialized file. *)
Definition resolve_artifact (context : Context) : M unit :=
  let properties := system_properties context in
  cuda <- torch_cuda_is_available ;;
  let map_loc := if cuda then "cuda" else "cpu" in
  assign (set_map_location (Some map_loc)) ;;;
  cuda' <- torch_cuda_is_available ;;
  let name :=
    if cuda'
    then (map_loc ++ ":" ++ str_gpu_id (gpu_id properties))%string
    else map_loc in
  dev <- call (EvTorchDevice name) (torch_device w name) ;;
  assign (set_device (Some dev)) ;;;
  assign (set_manifest (Some (ctx_manifest context))) ;;;
  let model_pt_path :=
    os_path_join (model_dir properties)
                 (serializedFile (ctx_manifest context)) in
  present <- isfile model_pt_path ;;
  raise_if (negb present) MissingArtifact.

(** Lines 79-83: the label mapping and the [initialized] flag. *)
Definition finish_initialize (context : Context) : M unit :=
  let mapping_file_path :=
    os_path_join (model_dir (system_properties context)) "index_to_name.json" in
  mp <- load_label_mapping mapping_file_path ;;
  assign (set_mapping mp) ;;;
  assign (set_initialized true).

(** Lines 33-83. *)
Definition initialize (context : Context) : M unit :=
  let properties := system_properties context in
  let model_pt_path :=
    os_path_join (model_dir properties)
                 (serializedFile (ctx_manifest context)) in
  resolve_artifact context ;;;
  let model_file := get_default (modelFile (ctx_manifest context)) "" in
  assign (set_torch_api_type (prop_torch_api_type properties)) ;;;
  load_by_api (model_dir properties) model_file model_pt_path ;;;
  finish_initialize context.

(** Lines 36-77: [initialize] up to the loaded model. *)
Definition select_and_load (context : Context) : M unit :=
  let properties := system_properties context in
  let model_pt_path :=
    os_path_join (model_dir properties)
                 (serializedFile (ctx_manifest context)) in
  resolve_artifact context ;;;
  let model_file := get_default (modelFile (ctx_manifest context)) "" in
  assign (set_torch_api_type (prop_torch_api_type properties)) ;;;
  load_by_api (model_dir properties) model_file model_pt_path.

(** Lines 105-111. *)
Definition preprocess (data : pyval) : M tensor :=
  dev <- attr device ;;
  ret (torch_as_tensor data dev).

(** Lines 113-129. [torch.no_grad()] changes nothing the handler sees. *)
Definition inference (data : tensor) (args : list pyarg)
           (kwargs : list (string * pyarg)) : M tensor :=
  dev <- attr device ;;
  let marshalled_data := tensor_to data dev in
  api <- attr torch_api_type ;;
  if api =? "python" then
    m <- attr model ;;
    match m with
    | None => raise (InterpreterError "'NoneType' object is not callable")
    | Some o =>
        call (EvCallModel o (ArgTensor marshalled_data :: args) kwargs)
             (model_call w o (ArgTensor marshalled_data :: args) kwargs)
    end
  else
    raise_if (negb (length kwargs =? 0)%nat) UnsupportedArguments ;;;
    let params := [ArgTensor marshalled_data] ++ args in
    binding <- attr torch_cpp_python_module ;;
    match binding with
    | None => raise (InterpreterError "'NoneType' object has no attribute 'run_model'")
    | Some b =>
        hdl <- attr model ;;
        call (EvRunModel b hdl params) (cpp_run_model w b hdl params)
    end.

(** Lines 131-138. *)
Definition postprocess (data : tensor) : M pyval :=
  ret (contents data).

(** The three methods a subclass may override. *)
Record HandlerClass : Type := {
  do_preprocess : pyval -> M tensor;
  do_inference : tensor -> list pyarg -> list (string * pyarg) -> M tensor;
  do_postprocess : tensor -> M pyval
}.

(** [BaseHandler] itself. *)
Definition Base : HandlerClass := {|
  do_preprocess := preprocess;
  do_inference := inference;
  do_postprocess := postprocess
|}.

(** Lines 140-152. *)
Definition handle (cls : HandlerClass) (data : pyval) (context : Context)
  : M pyval :=
  assign (set_context (Some context)) ;;;
  data1 <- do_preprocess cls data ;;
  data2 <- do_inference cls data1 [] [] ;;
  data3 <- do_postprocess cls data2 ;;
  ret data3.

End Methods.

Arguments os_path_join : simpl never.
Arguments split_dot_head : simpl never.
Arguments str_gpu_id : simpl never.

(** ** Names for what [initialize] computes from its context *)

(** [model_pt_path] of line 44. *)
Definition model_pt_path (ctx : Context) : string :=
  os_path_join (model_dir (system_properties ctx))
               (serializedFile (ctx_manifest ctx)).

(** [model_file] of line 50. *)
Definition model_file (ctx : Context) : string :=
  get_default (modelFile (ctx_manifest ctx)) "".

(** [mapping_file_path] of line 80. *)
Definition mapping_file_path (ctx : Context) : string :=
  os_path_join (model_dir (system_properties ctx)) "index_to_name.json".

(** The value line 37 stores in [self.map_location]. *)
Definition selected_map_location (w : World) : string :=
  if cuda_is_available w then "cuda" else "cpu".

(** The name lines 38-39 hand to [torch.device]. *)
Definition selected_device (w : World) (ctx : Context) : string :=
  if cuda_is_available w
  then (selected_map_location w ++ ":"
        ++ str_gpu_id (gpu_id (system_properties ctx)))%string
  else selected_map_location w.

(** The handler once lines 36-40 have run, [dev] being the device that
    [torch.device] returned. *)
Definition after_resolve (w : World) (ctx : Context) (dev : string)
           (h : BaseHandler) : BaseHandler :=
  set_manifest (Some (ctx_manifest ctx))
    (set_device (Some dev)
       (set_map_location (Some (selected_map_location w)) h)).

(** The calls of lines 36-46. *)
Definition resolve_calls (w : World) (ctx : Context) : list event :=
  [EvCudaIsAvailable; EvCudaIsAvailable; EvTorchDevice (selected_device w ctx);
   EvIsFile (model_pt_path ctx)].

(** The dispatch of line 121: everything that is not ['python'] goes to the
    compiled binding. *)
Inductive ExecutionBackend : Type := Native | ForeignBinding.

Definition execution_backend (h : BaseHandler) : ExecutionBackend :=
  if torch_api_type h =? "python" then Native else ForeignBinding.

(** ** Assertions about a method

    [triple P m Q E]: from a state in [P], [m] either returns [a] in a state
    in [Q a] or raises [e] in a state in [E e]. *)
Definition triple {A} (P : St -> Prop) (m : M A)
           (Q : A -> St -> Prop) (E : exn -> St -> Prop) : Prop :=
  forall s, P s ->
    match m s with
    | (s', Returned a) => Q a s'
    | (s', Raised e) => E e s'
    end.

(** An assertion on the handler alone. *)
Definition on_self (I : BaseHandler -> Prop) : St -> Prop :=
  fun s => I (self s).

(** [m] keeps [I], however it ends. *)
Definition keeps {A} (I : St -> Prop) (m : M A) : Prop :=
  triple I m (fun _ => I) (fun _ => I).

(** A subclass whose overrides leave [self.context] alone. *)
Definition leaves_context {A} (m : M A) : Prop :=
  forall c, keeps (on_self (fun h => context h = c)) m.

(** Every exception [m] raises is in [X]. *)
Definition raises_only {A} (X : exn -> Prop) (m : M A) : Prop :=
  triple (fun _ => True) m (fun _ _ => True) (fun e _ => X e).

(** A method that never raises the exception of line 125. *)
Definition never_unsupported_arguments {A} (m : M A) : Prop :=
  raises_only (fun e => e <> UnsupportedArguments) m.

(** A subclass that overrides [preprocess] and [postprocess] and inherits
    [inference]. *)
Definition Subclass (w : World) (pre : pyval -> M tensor)
           (post : tensor -> M pyval) : HandlerClass := {|
  do_preprocess := pre;
  do_inference := inference w;
  do_postprocess := post
|}.

(** ** A deployment to run the handler on *)

Module Example.

(** A host without accelerator. [files] are the files on disk. Imported
    modules, classes and models are numbered. *)
Definition host (files : list string) : World := {|
  cuda_is_available := false;
  torch_device := fun name =>
    if name =? "cpu" then inr "cpu"
    else inl (ExtExn "RuntimeError" "Invalid device string");
  source_path := "/opt/ts/torch_handler";
  os_path_isfile := fun p => existsb (String.eqb p) files;
  torch_jit_load := fun _ _ => inr 7;
  importlib_import_module := fun name =>
    if name =? "model" then inr 1
    else if name =? "two" then inr 8
    else inl (ExtExn "ModuleNotFoundError" name);
  list_classes_from_module := fun module =>
    match module with
    | 1 => [2]
    | 8 => [2; 9]
    | _ => []
    end;
  torch_load := fun _ _ => inr 3;
  construct := fun _ => inr 4;
  load_state_dict := fun _ _ => inr tt;
  model_to := fun _ _ => inr tt;
  model_eval := fun _ => inr tt;
  cpp_extension_load := fun _ _ => inr 5;
  cpp_load_model := fun _ _ _ _ => inr 6;
  read_label_file := fun _ => inr [("0", "cat"); ("1", "dog")];
  model_call := fun _ args _ =>
    match args with
    | ArgTensor t :: _ => inr t
    | _ => inl (ExtExn "TypeError" "forward")
    end;
  cpp_run_model := fun _ _ params =>
    match params with
    | ArgTensor t :: _ => inr t
    | _ => inl (ExtExn "RuntimeError" "run_model")
    end
|}.

(** The model directory holds the artifact and two class-definition files. *)
Definition stocked : World :=
  host ["/models/model.pt"; "/models/model.py"; "/models/two.py"].

(** The model directory is empty. *)
Definition bare : World := host [].

(** As [stocked], but [model.eval()] raises. *)
Definition stocked_eval_fails : World := {|
  cuda_is_available := cuda_is_available stocked;
  torch_device := torch_device stocked;
  source_path := source_path stocked;
  os_path_isfile := os_path_isfile stocked;
  torch_jit_load := torch_jit_load stocked;
  importlib_import_module := importlib_import_module stocked;
  list_classes_from_module := list_classes_from_module stocked;
  torch_load := torch_load stocked;
  construct := construct stocked;
  load_state_dict := load_state_dict stocked;
  model_to := model_to stocked;
  model_eval := fun _ => inl (ExtExn "RuntimeError" "eval");
  cpp_extension_load := cpp_extension_load stocked;
  cpp_load_model := cpp_load_model stocked;
  read_label_file := read_label_file stocked;
  model_call := model_call stocked;
  cpp_run_model := cpp_run_model stocked
|}.

(** As [stocked], on a host with one accelerator, device ["cuda:0"]. *)
Definition accelerated : World := {|
  cuda_is_available := true;
  torch_device := fun name =>
    if name =? "cuda:0" then inr "cuda:0"
    else if name =? "cpu" then inr "cpu"
    else inl (ExtExn "RuntimeError" "Invalid device string");
  source_path := source_path stocked;
  os_path_isfile := os_path_isfile stocked;
  torch_jit_load := torch_jit_load stocked;
  importlib_import_module := importlib_import_module stocked;
  list_classes_from_module := list_classes_from_module stocked;
  torch_load := torch_load stocked;
  construct := construct stocked;
  load_state_dict := load_state_dict stocked;
  model_to := model_to stocked;
  model_eval := model_eval stocked;
  cpp_extension_load := cpp_extension_load stocked;
  cpp_load_model := cpp_load_model stocked;
  read_label_file := read_label_file stocked;
  model_call := model_call stocked;
  cpp_run_model := cpp_run_model stocked
|}.

(** As [stocked], with a label file in the model directory. *)
Definition labelled : World :=
  host ["/models/model.pt"; "/models/index_to_name.json"].

Definition deployment (api : string) (model_file : option string) : Context := {|
  system_properties :=
    {| model_dir := "/models"; gpu_id := None; prop_torch_api_type := api |};
  ctx_manifest :=
    {| serializedFile := "model.pt"; modelFile := model_file |}
|}.

Definition native_script : Context := deployment "python" None.
Definition native_eager : Context := deployment "python" (Some "model.py").
Definition native_two_classes : Context := deployment "python" (Some "two.py").
Definition foreign_script : Context := deployment "cpp" None.
Definition foreign_eager : Context := deployment "cpp" (Some "model.py").
Definition other_api : Context := deployment "java" None.

(** [native_script], with the accelerator index given. *)
Definition on_gpu (gpu : Z) : Context := {|
  system_properties :=
    {| model_dir := "/models"; gpu_id := Some gpu;
       prop_torch_api_type := "python" |};
  ctx_manifest := {| serializedFile := "model.pt"; modelFile := None |}
|}.

(** A handler just constructed. *)
Definition fresh : St := mkSt __init__ [].

(** A handler serving through the compiled binding. *)
Definition foreign_ready : St := fst (initialize stocked foreign_script fresh).

(** A handler serving in process. *)
Definition native_ready : St := fst (initialize stocked native_script fresh).

Definition request : pyval := PyList [PyList [PyInt 1; PyInt 2; PyInt 3]].

End Example.

(** * Properties

    ** The library functions and the example deployment, run *)

Example os_path_join_directory :
  os_path_join "/models" "model.pt" = "/models/model.pt".
Proof. reflexivity. Qed.

Example os_path_join_trailing_separator :
  os_path_join "/models/" "model.pt" = "/models/model.pt".
Proof. reflexivity. Qed.

Example os_path_join_absolute :
  os_path_join "/models" "/srv/model.pt" = "/srv/model.pt".
Proof. reflexivity. Qed.

Example os_path_join_empty_directory :
  os_path_join "" "model.pt" = "model.pt".
Proof. reflexivity. Qed.

Example split_dot_head_module : split_dot_head "model.py" = "model".
Proof. reflexivity. Qed.

Example str_gpu_id_index : str_gpu_id (Some 1%Z) = "1".
Proof. reflexivity. Qed.

Example str_gpu_id_missing : str_gpu_id None = "None".
Proof. reflexivity. Qed.

Example native_script_is_served :
  Example.native_ready =
  mkSt {| model := Some 7;
          mapping := None;
          device := Some "cpu";
          initialized := true;
          context := None;
          manifest := Some (ctx_manifest Example.native_script);
          map_location := Some "cpu";
          torch_cpp_python_module := None;
          torch_api_type := "python" |}
       [EvCudaIsAvailable; EvCudaIsAvailable; EvTorchDevice "cpu";
        EvIsFile "/models/model.pt";
        EvJitLoad "/models/model.pt" (Some "cpu");
        EvModelTo 7 (Some "cpu"); EvModelEval 7;
        EvIsFile "/models/index_to_name.json"].
Proof. reflexivity. Qed.

Example foreign_script_is_served :
  Example.foreign_ready =
  mkSt {| model := Some 6;
          mapping := None;
          device := Some "cpu";
          initialized := true;
          context := None;
          manifest := Some (ctx_manifest Example.foreign_script);
          map_location := Some "cpu";
          torch_cpp_python_module := Some 5;
          torch_api_type := "cpp" |}
       [EvCudaIsAvailable; EvCudaIsAvailable; EvTorchDevice "cpu";
        EvIsFile "/models/model.pt";
        EvCppExtensionLoad "torch_cpp_python_bindings"
          ["/opt/ts/torch_handler/torch_cpp_python_bindings.cpp"];
        EvCppLoadModel 5 "/models/model.pt" (Some "cpu") "cpu";
        EvIsFile "/models/index_to_name.json"].
Proof. reflexivity. Qed.

Example foreign_request_is_run :
  handle (Base Example.stocked) Example.request Example.foreign_script
         Example.foreign_ready =
  (mkSt (set_context (Some Example.foreign_script) (self Example.foreign_ready))
        (trace Example.foreign_ready
         ++ [EvRunModel 5 (Some 6) [ArgTensor (Tensor Example.request "cpu")]]),
   Returned Example.request).
Proof. reflexivity. Qed.

Example accelerator_device_is_indexed :
  device (self (fst (initialize Example.accelerated (Example.on_gpu 0)
                                Example.fresh))) = Some "cuda:0"
  /\ snd (initialize Example.accelerated (Example.on_gpu 0) Example.fresh)
     = Returned tt.
Proof. split; reflexivity. Qed.

(** On a host with an accelerator and no [gpu_id] in the properties, line 38
    asks for the device ["cuda:None"]; when [torch.device] refuses it,
    [initialize] ends there, with [map_location] alone assigned. *)
Example accelerator_without_index :
  initialize Example.accelerated Example.native_script Example.fresh =
  (mkSt (set_map_location (Some "cuda") __init__)
        [EvCudaIsAvailable; EvCudaIsAvailable; EvTorchDevice "cuda:None"],
   Raised (Propagated (ExtExn "RuntimeError" "Invalid device string"))).
Proof. reflexivity. Qed.

(** ** Running a method *)

Ltac unfold_monad :=
  unfold bind, attr, assign, query, call, raise_if, raise, ret in *.

Lemma bind_returned {A B} (m : M A) (k : A -> M B) s s' a :
  m s = (s', Returned a) -> bind m k s = k a s'.
Proof. intros H. unfold bind. now rewrite H. Qed.

Lemma bind_raised {A B} (m : M A) (k : A -> M B) s s' e :
  m s = (s', Raised e) -> bind m k s = (s', Raised e).
Proof. intros H. unfold bind. now rewrite H. Qed.

Lemma bind_assoc {A B C} (m : M A) (k : A -> M B) (k' : B -> M C) s :
  bind (bind m k) k' s = bind m (fun a => bind (k a) k') s.
Proof. unfold bind. destruct (m s) as [s1 [a|e]]; reflexivity. Qed.

Lemma bind_ext {A B} (m : M A) (k k' : A -> M B) s :
  (forall a s', k a s' = k' a s') -> bind m k s = bind m k' s.
Proof. intros H. unfold bind. destruct (m s) as [s1 [a|e]]; auto. Qed.

(** Lines 36-47, when [torch.device] returns the device [dev]: they run to
    the check of the serialized file and stop there when it is not on disk. *)
Lemma resolve_artifact_run w ctx s dev :
  torch_device w (selected_device w ctx) = inr dev ->
  resolve_artifact w ctx s =
  (mkSt (after_resolve w ctx dev (self s))
        (trace s ++ resolve_calls w ctx),
   if os_path_isfile w (model_pt_path ctx)
   then Returned tt else Raised MissingArtifact).
Proof.
  intros Hdev.
  unfold resolve_artifact, torch_cuda_is_available, isfile.
  unfold_monad. cbn [self trace].
  fold (selected_map_location w). fold (selected_device w ctx).
  rewrite Hdev. cbn [self trace].
  rewrite <- !app_assoc. cbn [app].
  unfold after_resolve, resolve_calls, model_pt_path.
  destruct (os_path_isfile w _); reflexivity.
Qed.

(** Lines 36-47, when [torch.device] raises: they stop at line 38. *)
Lemma resolve_artifact_without_device w ctx s e :
  torch_device w (selected_device w ctx) = inl e ->
  resolve_artifact w ctx s =
  (mkSt (set_map_location (Some (selected_map_location w)) (self s))
        (trace s ++ [EvCudaIsAvailable; EvCudaIsAvailable;
                     EvTorchDevice (selected_device w ctx)]),
   Raised (Propagated e)).
Proof.
  intros Hdev.
  unfold resolve_artifact, torch_cuda_is_available, isfile.
  unfold_monad. cbn [self trace].
  fold (selected_map_location w). fold (selected_device w ctx).
  rewrite Hdev. cbn [self trace].
  rewrite <- !app_assoc. reflexivity.
Qed.

(** What [initialize] does after lines 36-47, from the state they leave. *)
Lemma initialize_after_resolve w ctx s dev :
  torch_device w (selected_device w ctx) = inr dev ->
  os_path_isfile w (model_pt_path ctx) = true ->
  initialize w ctx s =
  bind (load_by_api w (model_dir (system_properties ctx)) (model_file ctx)
                    (model_pt_path ctx))
       (fun _ => finish_initialize w ctx)
       (mkSt (set_torch_api_type (prop_torch_api_type (system_properties ctx))
                                 (after_resolve w ctx dev (self s)))
             (trace s ++ resolve_calls w ctx)).
Proof.
  intros Hdev Hfile. unfold initialize.
  erewrite bind_returned
    by (rewrite (resolve_artifact_run _ _ _ _ Hdev);
        fold (model_pt_path ctx); rewrite Hfile; reflexivity).
  reflexivity.
Qed.

(** With no file at [model_pt_path], [initialize] ends at line 47. *)
Lemma initialize_without_artifact w ctx s dev :
  torch_device w (selected_device w ctx) = inr dev ->
  os_path_isfile w (model_pt_path ctx) = false ->
  initialize w ctx s =
  (mkSt (after_resolve w ctx dev (self s))
        (trace s ++ resolve_calls w ctx),
   Raised MissingArtifact).
Proof.
  intros Hdev Hfile. unfold initialize.
  apply bind_raised.
  rewrite (resolve_artifact_run _ _ _ _ Hdev). fold (model_pt_path ctx).
  now rewrite Hfile.
Qed.

(** When [torch.device] raises, [initialize] ends at line 38. *)
Lemma initialize_without_device w ctx s e :
  torch_device w (selected_device w ctx) = inl e ->
  initialize w ctx s =
  (mkSt (set_map_location (Some (selected_map_location w)) (self s))
        (trace s ++ [EvCudaIsAvailable; EvCudaIsAvailable;
                     EvTorchDevice (selected_device w ctx)]),
   Raised (Propagated e)).
Proof.
  intros Hdev. unfold initialize.
  apply bind_raised. now apply resolve_artifact_without_device.
Qed.

(** ** The check of the serialized file *)

(** C4 as stated fails: with the serialized file missing, [initialize] raises
    [MissingArtifact] out of a handler it has already written to. *)
Lemma missing_artifact_after_mutation :
  snd (initialize Example.bare Example.native_script Example.fresh)
  = Raised MissingArtifact
  /\ self (fst (initialize Example.bare Example.native_script Example.fresh))
     <> self Example.fresh
  /\ manifest (self (fst (initialize Example.bare Example.native_script
                                     Example.fresh)))
     = Some (ctx_manifest Example.native_script).
Proof.
  split; [reflexivity|]. split; [|reflexivity].
  vm_compute. discriminate.
Qed.

(** C4, amended: once [torch.device] has returned the device (line 38), when
    [model_pt_path] is not a file [initialize] raises [MissingArtifact] before
    [torch_api_type] is read or checked and before any loader runs. By then it
    has asked twice whether an accelerator is available, has built the device
    and has assigned [map_location], [device] and [manifest]; every other
    attribute is as it was. *)
Theorem missing_artifact_stops_initialize w ctx s dev :
  torch_device w (selected_device w ctx) = inr dev ->
  os_path_isfile w (model_pt_path ctx) = false ->
  initialize w ctx s =
  (mkSt (after_resolve w ctx dev (self s))
        (trace s ++ [EvCudaIsAvailable; EvCudaIsAvailable;
                     EvTorchDevice (selected_device w ctx);
                     EvIsFile (model_pt_path ctx)]),
   Raised MissingArtifact).
Proof. exact (initialize_without_artifact w ctx s dev). Qed.

Lemma missing_artifact_stops_initialize_witness :
  os_path_isfile Example.bare (model_pt_path Example.foreign_eager) = false
  /\ initialize Example.bare Example.foreign_eager Example.fresh =
     (mkSt (after_resolve Example.bare Example.foreign_eager "cpu" __init__)
           [EvCudaIsAvailable; EvCudaIsAvailable; EvTorchDevice "cpu";
            EvIsFile "/models/model.pt"],
      Raised MissingArtifact).
Proof.
  split; [reflexivity|].
  apply (missing_artifact_stops_initialize
           Example.bare Example.foreign_eager Example.fresh "cpu");
    reflexivity.
Defined.

(** ** The foreign backend and class-definition models *)

(** C2 as stated fails: with no file at [model_pt_path] the foreign, eager
    configuration ends in [MissingArtifact], not [UnsupportedCombination]. *)
Lemma foreign_eager_without_artifact :
  snd (initialize Example.bare Example.foreign_eager Example.fresh)
  = Raised MissingArtifact
  /\ snd (initialize Example.bare Example.foreign_eager Example.fresh)
     <> Raised UnsupportedCombination.
Proof. split; [reflexivity | vm_compute; discriminate]. Qed.

(** C2, amended: for [torch_api_type = 'cpp'] and a non-empty [modelFile],
    once [torch.device] has returned the device, [initialize] raises
    [UnsupportedCombination] whenever some file is at [model_pt_path],
    whatever that file holds (no loader is asked about it), and raises
    [MissingArtifact] when no file is there. *)
Theorem foreign_eager_unsupported_combination w ctx s dev :
  (prop_torch_api_type (system_properties ctx) =? "cpp") = true ->
  truthy (model_file ctx) = true ->
  torch_device w (selected_device w ctx) = inr dev ->
  (os_path_isfile w (model_pt_path ctx) = true ->
   initialize w ctx s =
   (mkSt (set_torch_api_type "cpp" (after_resolve w ctx dev (self s)))
         (trace s ++ resolve_calls w ctx),
    Raised UnsupportedCombination))
  /\ (os_path_isfile w (model_pt_path ctx) = false ->
      initialize w ctx s =
      (mkSt (after_resolve w ctx dev (self s))
            (trace s ++ resolve_calls w ctx),
       Raised MissingArtifact)).
Proof.
  intros Hapi Hmf Hdev. split; intros Hfile.
  - apply String.eqb_eq in Hapi.
    rewrite (initialize_after_resolve _ _ _ _ Hdev Hfile), Hapi.
    unfold load_by_api. unfold_monad.
    cbn [self torch_api_type set_torch_api_type].
    cbn [String.eqb Ascii.eqb Bool.eqb].
    now rewrite Hmf.
  - now apply initialize_without_artifact.
Qed.

Lemma foreign_eager_unsupported_combination_witness :
  snd (initialize Example.stocked Example.foreign_eager Example.fresh)
  = Raised UnsupportedCombination
  /\ snd (initialize Example.bare Example.foreign_eager Example.fresh)
     = Raised MissingArtifact.
Proof.
  split.
  - rewrite (proj1 (foreign_eager_unsupported_combination
                      Example.stocked Example.foreign_eager Example.fresh
                      "cpu" eq_refl eq_refl eq_refl) eq_refl).
    reflexivity.
  - rewrite (proj2 (foreign_eager_unsupported_combination
                      Example.bare Example.foreign_eager Example.fresh
                      "cpu" eq_refl eq_refl eq_refl) eq_refl).
    reflexivity.
Defined.

(** ** The execution-API selector *)

(** C7: [initialize] returns only for the selectors ['python'] and ['cpp'];
    for every other selector, once the device is built and the serialized
    file found, where the selector is read, it raises
    [UnsupportedExecutionAPI] without loading anything. *)
Theorem unsupported_execution_api w ctx s :
  (forall s', initialize w ctx s = (s', Returned tt) ->
     prop_torch_api_type (system_properties ctx) = "python"
     \/ prop_torch_api_type (system_properties ctx) = "cpp")
  /\ ((prop_torch_api_type (system_properties ctx) =? "python") = false ->
      (prop_torch_api_type (system_properties ctx) =? "cpp") = false ->
      forall dev,
      torch_device w (selected_device w ctx) = inr dev ->
      os_path_isfile w (model_pt_path ctx) = true ->
      initialize w ctx s =
      (mkSt (set_torch_api_type (prop_torch_api_type (system_properties ctx))
                                (after_resolve w ctx dev (self s)))
            (trace s ++ resolve_calls w ctx),
       Raised UnsupportedExecutionAPI)).
Proof.
  assert (Hother :
    (prop_torch_api_type (system_properties ctx) =? "python") = false ->
    (prop_torch_api_type (system_properties ctx) =? "cpp") = false ->
    forall dev,
    torch_device w (selected_device w ctx) = inr dev ->
    os_path_isfile w (model_pt_path ctx) = true ->
    initialize w ctx s =
    (mkSt (set_torch_api_type (prop_torch_api_type (system_properties ctx))
                              (after_resolve w ctx dev (self s)))
          (trace s ++ resolve_calls w ctx),
     Raised UnsupportedExecutionAPI)).
  { intros Hpy Hcpp dev Hdev Hfile.
    rewrite (initialize_after_resolve _ _ _ _ Hdev Hfile).
    unfold load_by_api. unfold_monad.
    cbn [self torch_api_type set_torch_api_type].
    now rewrite Hpy, Hcpp. }
  split; [|exact Hother].
  intros s' Hret.
  destruct (prop_torch_api_type (system_properties ctx) =? "python") eqn:Hpy;
    [left; now apply String.eqb_eq|].
  destruct (prop_torch_api_type (system_properties ctx) =? "cpp") eqn:Hcpp;
    [right; now apply String.eqb_eq|].
  destruct (torch_device w (selected_device w ctx)) as [e|dev] eqn:Hdev;
    [rewrite (initialize_without_device _ _ _ _ Hdev) in Hret; discriminate|].
  destruct (os_path_isfile w (model_pt_path ctx)) eqn:Hfile.
  - rewrite (Hother eq_refl eq_refl dev eq_refl eq_refl) in Hret.
    discriminate.
  - rewrite (initialize_without_artifact _ _ _ _ Hdev Hfile) in Hret.
    discriminate.
Qed.

Lemma unsupported_execution_api_witness :
  snd (initialize Example.stocked Example.other_api Example.fresh)
  = Raised UnsupportedExecutionAPI.
Proof.
  rewrite (proj2 (unsupported_execution_api
                    Example.stocked Example.other_api Example.fresh)
                 eq_refl eq_refl "cpu" eq_refl eq_refl).
  reflexivity.
Defined.

(** ** Rules for [triple] *)

Section Rules.

Context {A B : Type}.
Implicit Types (P : St -> Prop) (E : exn -> St -> Prop).

Lemma triple_ret P (Q : A -> St -> Prop) E (a : A) :
  (forall s, P s -> Q a s) -> triple P (ret a) Q E.
Proof. intros H s Hs. now apply H. Qed.

Lemma triple_raise P (Q : A -> St -> Prop) E e :
  (forall s, P s -> E e s) -> triple P (raise e) Q E.
Proof. intros H s Hs. now apply H. Qed.

Lemma triple_bind P (R : A -> St -> Prop) (Q : B -> St -> Prop) E
      (m : M A) (k : A -> M B) :
  triple P m R E ->
  (forall a, triple (R a) (k a) Q E) ->
  triple P (bind m k) Q E.
Proof.
  intros Hm Hk s Hs. unfold bind.
  specialize (Hm s Hs). destruct (m s) as [s1 [a|e]]; [|exact Hm].
  exact (Hk a s1 Hm).
Qed.

Lemma triple_weaken P P' (Q Q' : A -> St -> Prop) E E' (m : M A) :
  triple P' m Q' E' ->
  (forall s, P s -> P' s) ->
  (forall a s, Q' a s -> Q a s) ->
  (forall e s, E' e s -> E e s) ->
  triple P m Q E.
Proof.
  intros Hm HP HQ HE s Hs. specialize (Hm s (HP s Hs)).
  destruct (m s) as [s1 [a|e]]; auto.
Qed.

End Rules.

(** Attributes that a method does not assign keep their value: [I] speaks of
    the handler only, so the trace may grow. *)
Section Keeps.

Variable I : BaseHandler -> Prop.

Lemma keeps_ret {A} (a : A) : keeps (on_self I) (ret a).
Proof. intros s Hs. exact Hs. Qed.

Lemma keeps_raise {A} e : keeps (on_self I) (@raise A e).
Proof. intros s Hs. exact Hs. Qed.

Lemma keeps_attr {A} (f : BaseHandler -> A) : keeps (on_self I) (attr f).
Proof. intros s Hs. exact Hs. Qed.

Lemma keeps_query {A} ev (a : A) : keeps (on_self I) (query ev a).
Proof. intros s Hs. exact Hs. Qed.

Lemma keeps_call {A} ev (a : ext_exn + A) : keeps (on_self I) (call ev a).
Proof. intros s Hs. unfold call. destruct a; exact Hs. Qed.

Lemma keeps_raise_if c e : keeps (on_self I) (raise_if c e).
Proof. intros s Hs. unfold raise_if. destruct c; exact Hs. Qed.

Lemma keeps_assign upd :
  (forall h, I h -> I (upd h)) -> keeps (on_self I) (assign upd).
Proof. intros H s Hs. exact (H _ Hs). Qed.

Lemma keeps_bind {A B} (m : M A) (k : A -> M B) :
  keeps (on_self I) m -> (forall a, keeps (on_self I) (k a)) ->
  keeps (on_self I) (bind m k).
Proof. intros Hm Hk. eapply triple_bind; [exact Hm | exact Hk]. Qed.

(** A method that keeps [I], followed by one judged from [I]. *)
Lemma triple_after_keeps {A B} (m : M A) (k : A -> M B) Q :
  keeps (on_self I) m ->
  (forall a, triple (on_self I) (k a) Q (fun _ => on_self I)) ->
  triple (on_self I) (bind m k) Q (fun _ => on_self I).
Proof. intros Hm Hk. eapply triple_bind; [exact Hm | exact Hk]. Qed.

End Keeps.

(** Decompose a method body along its statements; what is left are the
    assignments, to be shown to keep [I]. *)
Ltac keeps_step :=
  first
    [ apply keeps_ret | apply keeps_raise | apply keeps_attr
    | apply keeps_query | apply keeps_call | apply keeps_raise_if
    | apply keeps_bind; [|intros ?]
    | apply keeps_assign; intros ? ? ].

Ltac keeps_body :=
  repeat first
    [ keeps_step
    | match goal with
      | |- keeps _ (if ?c then _ else _) => destruct c
      | |- keeps _ (match ?x with _ => _ end) => destruct x
      end ].

(** ** What the methods leave alone *)

Lemma load_label_mapping_keeps I w path :
  keeps (on_self I) (load_label_mapping w path).
Proof. unfold load_label_mapping, isfile. keeps_body. Qed.

Lemma resolve_artifact_keeps I w ctx :
  (forall v h, I h -> I (set_map_location v h)) ->
  (forall v h, I h -> I (set_device v h)) ->
  (forall v h, I h -> I (set_manifest v h)) ->
  keeps (on_self I) (resolve_artifact w ctx).
Proof.
  intros. unfold resolve_artifact, torch_cuda_is_available, isfile.
  keeps_body; auto.
Qed.

Lemma load_by_api_keeps I w dir mf path :
  (forall v h, I h -> I (set_model v h)) ->
  (forall v h, I h -> I (set_torch_cpp_python_module v h)) ->
  keeps (on_self I) (load_by_api w dir mf path).
Proof.
  intros. unfold load_by_api, _load_pickled_model, _load_torchscript_model,
    the_model, isfile.
  keeps_body; auto.
Qed.

Lemma inference_keeps I w data args kwargs :
  keeps (on_self I) (inference w data args kwargs).
Proof. unfold inference. keeps_body. Qed.

Lemma preprocess_keeps I data : keeps (on_self I) (preprocess data).
Proof. unfold preprocess. keeps_body. Qed.

Lemma postprocess_keeps I data : keeps (on_self I) (postprocess data).
Proof. unfold postprocess. keeps_body. Qed.

(** ** The [initialized] flag *)

(** C6 as stated fails: [initialize] can raise after the model has been
    loaded and stored, and the handler then shows that model with
    [initialized] still false. *)
Lemma failed_initialize_exposes_model :
  snd (initialize Example.stocked_eval_fails Example.native_script Example.fresh)
  = Raised (Propagated (ExtExn "RuntimeError" "eval"))
  /\ initialized
       (self (fst (initialize Example.stocked_eval_fails Example.native_script
                              Example.fresh))) = false
  /\ model
       (self (fst (initialize Example.stocked_eval_fails Example.native_script
                              Example.fresh))) = Some 7
  /\ model (self Example.fresh) = None.
Proof. repeat split. Qed.

(** C6, amended: [initialized = True] is the last statement of [initialize],
    so when [initialize] returns the flag is true, and when it raises the flag
    is what it was before the call (false on a handler never initialized).
    Nothing is rolled back: after a raise the handler still holds the
    [map_location] assigned by line 37 and, when [torch.device] returned the
    device, the [device] and [manifest] assigned by lines 38-40. *)
Theorem initialized_only_on_success w ctx s :
  match initialize w ctx s with
  | (s', Returned _) => initialized (self s') = true
  | (s', Raised _) =>
      initialized (self s') = initialized (self s)
      /\ map_location (self s') = Some (selected_map_location w)
      /\ (forall dev,
             torch_device w (selected_device w ctx) = inr dev ->
             device (self s') = Some dev
             /\ manifest (self s') = Some (ctx_manifest ctx))
  end.
Proof.
  destruct (torch_device w (selected_device w ctx)) as [e|dev] eqn:Hdev.
  { rewrite (initialize_without_device _ _ _ _ Hdev).
    split; [reflexivity|]. split; [reflexivity|]. discriminate. }
  set (I := fun h : BaseHandler =>
              initialized h = initialized (self s)
              /\ map_location h = Some (selected_map_location w)
              /\ device h = Some dev
              /\ manifest h = Some (ctx_manifest ctx)).
  assert (Hrest : forall dir mf path,
             triple (on_self I)
                    (bind (assign (set_torch_api_type
                                     (prop_torch_api_type (system_properties ctx))))
                          (fun _ => bind (load_by_api w dir mf path)
                                         (fun _ => finish_initialize w ctx)))
                    (fun _ s' => initialized (self s') = true)
                    (fun _ => on_self I)).
  { intros dir mf path.
    apply triple_after_keeps; [keeps_body; assumption | intros _].
    apply triple_after_keeps;
      [apply load_by_api_keeps; intros; assumption | intros _].
    unfold finish_initialize.
    apply triple_after_keeps; [apply load_label_mapping_keeps | intros mp].
    apply triple_after_keeps; [keeps_body; assumption | intros _].
    intros s1 _. reflexivity. }
  assert (Hgoal : forall s', on_self I s' ->
             initialized (self s') = initialized (self s)
             /\ map_location (self s') = Some (selected_map_location w)
             /\ (forall dev0,
                    @inr ext_exn string dev = inr dev0 ->
                    device (self s') = Some dev0
                    /\ manifest (self s') = Some (ctx_manifest ctx))).
  { intros s' (Hflag & Hml & Hd & Hm). split; [exact Hflag|].
    split; [exact Hml|]. intros dev0 Heq. injection Heq as <-.
    split; assumption. }
  unfold initialize, bind at 1. rewrite (resolve_artifact_run _ _ _ _ Hdev).
  assert (HI : on_self I
                 (mkSt (after_resolve w ctx dev (self s))
                       (trace s ++ resolve_calls w ctx))).
  { repeat split. }
  fold (model_pt_path ctx).
  destruct (os_path_isfile w (model_pt_path ctx)).
  - pose proof (Hrest (model_dir (system_properties ctx))
                      (get_default (modelFile (ctx_manifest ctx)) "")
                      (model_pt_path ctx) _ HI) as H.
    unfold model_pt_path in H |- *.
    destruct (bind _ _ _) as [s' [[]|e]]; [exact H | now apply Hgoal].
  - now apply Hgoal.
Qed.

Lemma initialized_only_on_success_witness :
  initialized
    (self (fst (initialize Example.stocked_eval_fails Example.native_script
                           Example.fresh))) = false
  /\ device
       (self (fst (initialize Example.stocked_eval_fails Example.native_script
                              Example.fresh))) = Some "cpu"
  /\ manifest
       (self (fst (initialize Example.stocked_eval_fails Example.native_script
                              Example.fresh)))
     = Some (ctx_manifest Example.native_script).
Proof.
  pose proof (initialized_only_on_success Example.stocked_eval_fails
                Example.native_script Example.fresh) as H.
  destruct (initialize Example.stocked_eval_fails Example.native_script
                       Example.fresh) as [s' [[]|e]] eqn:Hrun.
  - discriminate Hrun.
  - destruct H as (Hflag & _ & Hdev). cbn [fst].
    split; [exact Hflag | exact (Hdev "cpu" eq_refl)].
Defined.

(** ** The request context *)

Lemma base_leaves_context w :
  (forall d, leaves_context (do_preprocess (Base w) d))
  /\ (forall t a k, leaves_context (do_inference (Base w) t a k))
  /\ (forall t, leaves_context (do_postprocess (Base w) t)).
Proof.
  repeat split; intros; intro c; cbn.
  - apply preprocess_keeps.
  - apply inference_keeps.
  - apply postprocess_keeps.
Qed.

(** C8 as stated fails: after [handle] has returned, the handler still holds
    the context of that request. *)
Lemma handle_retains_context :
  snd (handle (Base Example.stocked) Example.request Example.native_script
              Example.native_ready) = Returned Example.request
  /\ context (self Example.native_ready) = None
  /\ context (self (fst (handle (Base Example.stocked) Example.request
                                Example.native_script Example.native_ready)))
     = Some Example.native_script.
Proof. repeat split. Qed.

(** C8, amended: [handle] stores the request's context in [self.context]
    before the first stage runs, so that overrides may inspect it, and never
    clears it: with stages that do not assign [self.context] themselves, the
    attribute still holds that context when [handle] returns or raises. *)
Theorem handle_stores_context cls data ctx s :
  (forall d, leaves_context (do_preprocess cls d)) ->
  (forall t a k, leaves_context (do_inference cls t a k)) ->
  (forall t, leaves_context (do_postprocess cls t)) ->
  (exists s0,
      context (self s0) = Some ctx
      /\ handle cls data ctx s =
         bind (do_preprocess cls data)
              (fun d1 => bind (do_inference cls d1 [] [])
                              (fun d2 => bind (do_postprocess cls d2) ret)) s0)
  /\ context (self (fst (handle cls data ctx s))) = Some ctx.
Proof.
  intros Hpre Hinf Hpost. split.
  - exists (mkSt (set_context (Some ctx) (self s)) (trace s)).
    split; reflexivity.
  - assert (H : keeps (on_self (fun h => context h = Some ctx))
                      (bind (do_preprocess cls data)
                            (fun d1 => bind (do_inference cls d1 [] [])
                               (fun d2 => bind (do_postprocess cls d2) ret)))).
    { apply keeps_bind; [apply Hpre | intros d1].
      apply keeps_bind; [apply Hinf | intros d2].
      apply keeps_bind; [apply Hpost | intros d3].
      apply keeps_ret. }
    specialize (H (mkSt (set_context (Some ctx) (self s)) (trace s)) eq_refl).
    unfold handle, bind at 1, assign.
    destruct (bind _ _ _) as [s' [v|e]]; exact H.
Qed.

Lemma handle_stores_context_witness :
  context (self (fst (handle (Base Example.stocked) Example.request
                             Example.foreign_script Example.foreign_ready)))
  = Some Example.foreign_script.
Proof.
  apply (handle_stores_context (Base Example.stocked) Example.request
           Example.foreign_script Example.foreign_ready);
    apply (base_leaves_context Example.stocked).
Defined.

(** ** Exceptions a method can raise *)

Section RaisesOnly.

Variable X : exn -> Prop.

Lemma raises_only_ret {A} (a : A) : raises_only X (ret a).
Proof. intros s _. exact Logic.I. Qed.

Lemma raises_only_attr {A} (f : BaseHandler -> A) : raises_only X (attr f).
Proof. intros s _. exact Logic.I. Qed.

Lemma raises_only_assign upd : raises_only X (assign upd).
Proof. intros s _. exact Logic.I. Qed.

Lemma raises_only_query {A} ev (a : A) : raises_only X (query ev a).
Proof. intros s _. exact Logic.I. Qed.

Lemma raises_only_raise {A} e : X e -> raises_only X (@raise A e).
Proof. intros He s _. exact He. Qed.

Lemma raises_only_call {A} ev (a : ext_exn + A) :
  (forall e, X (Propagated e)) -> raises_only X (call ev a).
Proof. intros He s _. unfold call. destruct a; [apply He | exact Logic.I]. Qed.

Lemma raises_only_bind {A B} (m : M A) (k : A -> M B) :
  raises_only X m -> (forall a, raises_only X (k a)) ->
  raises_only X (bind m k).
Proof.
  intros Hm Hk. eapply triple_bind; [exact Hm|].
  intros a s _. exact (Hk a s Logic.I).
Qed.

End RaisesOnly.

(** Called without keyword arguments, [inference] does not reach line 125. *)
Lemma inference_without_kwargs w data args :
  never_unsupported_arguments (inference w data args []).
Proof.
  unfold never_unsupported_arguments, inference.
  apply raises_only_bind; [apply raises_only_attr | intros dev].
  apply raises_only_bind; [apply raises_only_attr | intros api].
  destruct (api =? "python").
  - apply raises_only_bind; [apply raises_only_attr | intros [o|]].
    + apply raises_only_call. discriminate.
    + apply raises_only_raise. discriminate.
  - apply raises_only_bind; [apply raises_only_ret | intros _].
    apply raises_only_bind; [apply raises_only_attr | intros [b|]].
    + apply raises_only_bind; [apply raises_only_attr | intros hdl].
      apply raises_only_call. discriminate.
    + apply raises_only_raise. discriminate.
Qed.

Lemma base_stages_never_unsupported_arguments :
  (forall d, never_unsupported_arguments (preprocess d))
  /\ (forall t, never_unsupported_arguments (postprocess t)).
Proof.
  split; intros x.
  - apply raises_only_bind; [apply raises_only_attr | intros dev].
    apply raises_only_ret.
  - apply raises_only_ret.
Qed.

(** ** The pipeline of [handle] *)

(** C10: [handle] calls [inference] with the output of [preprocess] and with
    neither positional nor keyword extras; hence a request that enters through
    [handle] of a class inheriting [inference] never ends in
    [UnsupportedArguments], whatever backend serves it, unless an overridden
    stage raises that exception itself. *)
Theorem handle_never_unsupported_arguments w pre post data ctx s :
  (forall d, never_unsupported_arguments (pre d)) ->
  (forall t, never_unsupported_arguments (post t)) ->
  (forall s1 a,
      pre data (mkSt (set_context (Some ctx) (self s)) (trace s))
      = (s1, Returned a) ->
      handle (Subclass w pre post) data ctx s =
      bind (inference w a [] []) (fun b => bind (post b) ret) s1)
  /\ snd (handle (Subclass w pre post) data ctx s) <> Raised UnsupportedArguments.
Proof.
  intros Hpre Hpost. split.
  - intros s1 a Hrun. unfold handle, bind at 1, assign. cbn [do_preprocess].
    now rewrite (bind_returned _ _ _ _ _ Hrun).
  - assert (H : never_unsupported_arguments
                  (handle (Subclass w pre post) data ctx)).
    { unfold handle. cbn [Subclass do_preprocess do_inference do_postprocess].
      apply raises_only_bind; [apply raises_only_assign | intros _].
      apply raises_only_bind; [apply Hpre | intros d1].
      apply raises_only_bind; [apply inference_without_kwargs | intros d2].
      apply raises_only_bind; [apply Hpost | intros d3].
      apply raises_only_ret. }
    specialize (H s Logic.I).
    destruct (handle _ _ _ _) as [s' [v|e]]; cbn; [discriminate|].
    intros Heq. injection Heq as ->. now apply H.
Qed.

Lemma handle_never_unsupported_arguments_witness :
  snd (handle (Subclass Example.stocked preprocess postprocess) Example.request
              Example.foreign_script Example.foreign_ready)
  <> Raised UnsupportedArguments.
Proof.
  apply (handle_never_unsupported_arguments Example.stocked preprocess
           postprocess Example.request Example.foreign_script
           Example.foreign_ready);
    apply base_stages_never_unsupported_arguments.
Defined.

(** [handle] is its three stages, run from the handler with the context
    stored. *)
Lemma handle_run cls data ctx s :
  handle cls data ctx s =
  bind (do_preprocess cls data)
       (fun d1 => bind (do_inference cls d1 [] [])
                       (fun d2 => bind (do_postprocess cls d2) ret))
       (mkSt (set_context (Some ctx) (self s)) (trace s)).
Proof. reflexivity. Qed.

(** C1: [handle] returns what [postprocess] returns on what [inference]
    returns on what [preprocess] returns on the request data, each stage
    running in the state the one before it left; an exception of a stage ends
    [handle] with that exception, in the state that stage left. *)
Theorem handle_is_pipeline cls data ctx s :
  let s0 := mkSt (set_context (Some ctx) (self s)) (trace s) in
  (forall s1 s2 s3 a b c,
      do_preprocess cls data s0 = (s1, Returned a) ->
      do_inference cls a [] [] s1 = (s2, Returned b) ->
      do_postprocess cls b s2 = (s3, Returned c) ->
      handle cls data ctx s = (s3, Returned c))
  /\ (forall s1 e,
         do_preprocess cls data s0 = (s1, Raised e) ->
         handle cls data ctx s = (s1, Raised e))
  /\ (forall s1 s2 a e,
         do_preprocess cls data s0 = (s1, Returned a) ->
         do_inference cls a [] [] s1 = (s2, Raised e) ->
         handle cls data ctx s = (s2, Raised e))
  /\ (forall s1 s2 s3 a b e,
         do_preprocess cls data s0 = (s1, Returned a) ->
         do_inference cls a [] [] s1 = (s2, Returned b) ->
         do_postprocess cls b s2 = (s3, Raised e) ->
         handle cls data ctx s = (s3, Raised e)).
Proof.
  cbv zeta. rewrite handle_run.
  repeat split; intros.
  - rewrite (bind_returned _ _ _ _ _ H), (bind_returned _ _ _ _ _ H0),
      (bind_returned _ _ _ _ _ H1). reflexivity.
  - now apply bind_raised.
  - rewrite (bind_returned _ _ _ _ _ H). now apply bind_raised.
  - rewrite (bind_returned _ _ _ _ _ H), (bind_returned _ _ _ _ _ H0).
    now apply bind_raised.
Qed.

Lemma handle_is_pipeline_witness :
  snd (handle (Base Example.stocked) Example.request Example.native_script
              Example.native_ready) = Returned Example.request.
Proof.
  erewrite (proj1 (handle_is_pipeline (Base Example.stocked) Example.request
                     Example.native_script Example.native_ready));
    [ | lazy; reflexivity ..].
  reflexivity.
Defined.

(** ** The inference router *)

(** A handler that [initialize] made ready for ['cpp'] is served by the
    compiled binding and holds the binding and the model handle. *)
Lemma initialize_foreign_backend w ctx s s' :
  prop_torch_api_type (system_properties ctx) = "cpp" ->
  initialize w ctx s = (s', Returned tt) ->
  execution_backend (self s') = ForeignBinding
  /\ exists b hdl,
       torch_cpp_python_module (self s') = Some b
       /\ model (self s') = Some hdl.
Proof.
  intros Hapi Hrun.
  destruct (torch_device w (selected_device w ctx)) as [e|dev] eqn:Hdev;
    [rewrite (initialize_without_device _ _ _ _ Hdev) in Hrun; discriminate|].
  destruct (os_path_isfile w (model_pt_path ctx)) eqn:Hfile;
    [| rewrite (initialize_without_artifact _ _ _ _ Hdev Hfile) in Hrun;
       discriminate].
  rewrite (initialize_after_resolve _ _ _ _ Hdev Hfile), Hapi in Hrun.
  unfold load_by_api, finish_initialize, load_label_mapping, isfile in Hrun.
  unfold_monad. cbn [self trace torch_api_type set_torch_api_type] in Hrun.
  cbn [String.eqb Ascii.eqb Bool.eqb] in Hrun.
  destruct (truthy (model_file ctx)); [discriminate|].
  destruct (cpp_extension_load w _ _) as [e|b]; [discriminate|].
  cbn in Hrun.
  destruct (cpp_load_model w _ _ _ _) as [e|hdl]; [discriminate|].
  cbn in Hrun.
  destruct (os_path_isfile w _); cbn in Hrun.
  - destruct (read_label_file w _); [discriminate|].
    injection Hrun as <-. cbn. split; [reflexivity | eauto].
  - injection Hrun as <-. cbn. split; [reflexivity | eauto].
Qed.

(** C3: on a handler served by the compiled binding, [inference] with any
    keyword argument raises [UnsupportedArguments] and calls nothing; with
    positional extras only, its one call is [run_model] of the binding on the
    model handle and the list made of the input, moved to the handler's
    device, followed by the extras in their order, and it ends as that call
    ends. *)
Theorem foreign_inference_dispatch w s data args kwargs :
  execution_backend (self s) = ForeignBinding ->
  (kwargs <> [] ->
   inference w data args kwargs s = (s, Raised UnsupportedArguments))
  /\ (kwargs = [] ->
      forall b, torch_cpp_python_module (self s) = Some b ->
      inference w data args kwargs s =
      (mkSt (self s)
            (trace s ++ [EvRunModel b (model (self s))
                           (ArgTensor (tensor_to data (device (self s)))
                            :: args)]),
       match cpp_run_model w b (model (self s))
               (ArgTensor (tensor_to data (device (self s))) :: args) with
       | inr t => Returned t
       | inl e => Raised (Propagated e)
       end)).
Proof.
  unfold execution_backend. intros Hbackend.
  destruct (torch_api_type (self s) =? "python") eqn:Hapi; [discriminate|].
  unfold inference. unfold_monad. rewrite Hapi. split.
  - intros Hkw. destruct kwargs as [|kw kwargs]; [contradiction|]. reflexivity.
  - intros -> b Hb. cbn. rewrite Hb. destruct s; reflexivity.
Qed.

Lemma foreign_inference_dispatch_witness :
  execution_backend (self Example.foreign_ready) = ForeignBinding
  /\ inference Example.stocked (Tensor Example.request "cpu")
               [ArgValue (PyInt 5)] [("k", ArgValue PyNone)]
               Example.foreign_ready
     = (Example.foreign_ready, Raised UnsupportedArguments)
  /\ snd (inference Example.stocked (Tensor Example.request "cuda:0")
                    [ArgValue (PyInt 5); ArgValue (PyStr "x")] []
                    Example.foreign_ready)
     = Returned (Tensor Example.request "cpu").
Proof.
  split; [reflexivity|]. split.
  - apply (foreign_inference_dispatch Example.stocked Example.foreign_ready);
      [reflexivity | discriminate].
  - rewrite (proj2 (foreign_inference_dispatch Example.stocked
                      Example.foreign_ready _ _ [] eq_refl)
                   eq_refl 5 eq_refl).
    reflexivity.
Defined.

(** ** Class-definition models *)

(** C5: for ['python'] with a model file named, found on disk next to the
    serialized file and imported as [module], once [torch.device] has returned
    the device, [initialize] lists the classes of [module]. Unless there is
    exactly one, it raises [AmbiguousModelDefinition] without constructing
    anything, and a handler that was not initialized stays so. With exactly
    one class, once [torch.load] has read [model_pt_path], the class is called
    with no argument and the state read from [model_pt_path] is loaded into
    the instance, which becomes [self.model]. *)
Theorem pickled_model_needs_one_class w ctx s dev mf module :
  (prop_torch_api_type (system_properties ctx) =? "python") = true ->
  modelFile (ctx_manifest ctx) = Some mf ->
  truthy mf = true ->
  torch_device w (selected_device w ctx) = inr dev ->
  os_path_isfile w (model_pt_path ctx) = true ->
  os_path_isfile w (os_path_join (model_dir (system_properties ctx)) mf)
  = true ->
  importlib_import_module w (split_dot_head mf) = inr module ->
  initialized (self s) = false ->
  let classes := list_classes_from_module w module in
  let probes :=
    [EvCudaIsAvailable; EvCudaIsAvailable;
     EvTorchDevice (selected_device w ctx); EvIsFile (model_pt_path ctx);
     EvIsFile (os_path_join (model_dir (system_properties ctx)) mf);
     EvImportModule (split_dot_head mf); EvListClasses module] in
  (length classes <> 1%nat ->
   initialize w ctx s =
   (mkSt (set_torch_api_type "python" (after_resolve w ctx dev (self s)))
         (trace s ++ probes),
    Raised (AmbiguousModelDefinition classes))
   /\ initialized (self (fst (initialize w ctx s))) = false)
  /\ (forall cls state_dict instance,
         classes = [cls] ->
         torch_load w (model_pt_path ctx) (Some (selected_map_location w))
         = inr state_dict ->
         construct w cls = inr instance ->
         load_state_dict w instance state_dict = inr tt ->
         model (self (fst (initialize w ctx s))) = Some instance
         /\ exists rest,
             trace (fst (initialize w ctx s)) =
             trace s ++ probes
             ++ [EvTorchLoad (model_pt_path ctx)
                             (Some (selected_map_location w));
                 EvConstruct cls [];
                 EvLoadStateDict instance state_dict]
             ++ rest).
Proof.
  intros Hapi Hmf Htruthy Hdev Hfile Hdef Himport Hflag classes probes.
  apply String.eqb_eq in Hapi.
  rewrite (initialize_after_resolve _ _ _ _ Hdev Hfile), Hapi.
  unfold model_file. rewrite Hmf. cbn [get_default].
  unfold load_by_api, _load_pickled_model, isfile, the_model, resolve_calls.
  unfold_monad.
  cbn [self trace torch_api_type set_torch_api_type].
  cbn [String.eqb Ascii.eqb Bool.eqb].
  rewrite Htruthy, Hdef, Himport. cbn [negb self trace].
  fold classes. split.
  - intros Hlen.
    apply Nat.eqb_neq in Hlen. rewrite Hlen. cbn [negb fst self].
    rewrite <- !app_assoc. cbn [app]. split; [reflexivity|].
    cbn. exact Hflag.
  - intros cls state_dict instance Hcls Hload Hnew Hrestore.
    rewrite Hcls. cbn [length Nat.eqb negb self trace map_location
                       set_torch_api_type after_resolve set_manifest
                       set_device set_map_location].
    rewrite Hload, Hnew. cbn [self trace]. rewrite Hrestore.
    cbn [self trace model set_model device].
    unfold finish_initialize, load_label_mapping, isfile. unfold_monad.
    destruct (model_to w instance _); cbn [self trace fst].
    + split; [reflexivity|].
      rewrite <- !app_assoc. cbn [app]. eexists. reflexivity.
    + destruct (model_eval w instance); cbn [self trace fst].
      * split; [reflexivity|].
        rewrite <- !app_assoc. cbn [app]. eexists. reflexivity.
      * destruct (os_path_isfile w (os_path_join
                                      (model_dir (system_properties ctx))
                                      "index_to_name.json"));
          cbn [negb self trace fst].
        -- destruct (read_label_file w _); cbn [self trace fst];
             (split; [reflexivity|]);
             rewrite <- !app_assoc; cbn [app]; eexists; reflexivity.
        -- split; [reflexivity|].
           rewrite <- !app_assoc. cbn [app]. eexists. reflexivity.
Qed.

Lemma pickled_model_needs_one_class_witness :
  (initialize Example.stocked Example.native_two_classes Example.fresh =
   (mkSt (set_torch_api_type "python"
            (after_resolve Example.stocked Example.native_two_classes "cpu"
                           __init__))
         [EvCudaIsAvailable; EvCudaIsAvailable; EvTorchDevice "cpu";
          EvIsFile "/models/model.pt";
          EvIsFile "/models/two.py"; EvImportModule "two"; EvListClasses 8],
    Raised (AmbiguousModelDefinition [2; 9]))
   /\ initialized
        (self (fst (initialize Example.stocked Example.native_two_classes
                               Example.fresh))) = false)
  /\ model (self (fst (initialize Example.stocked Example.native_eager
                                  Example.fresh))) = Some 4.
Proof.
  split.
  - apply (pickled_model_needs_one_class Example.stocked
             Example.native_two_classes Example.fresh "cpu" "two.py" 8);
      try reflexivity.
    discriminate.
  - apply (proj2 (pickled_model_needs_one_class Example.stocked
                    Example.native_eager Example.fresh "cpu" "model.py" 1
                    eq_refl eq_refl eq_refl eq_refl eq_refl eq_refl eq_refl
                    eq_refl)
                 2 3 4 eq_refl eq_refl eq_refl eq_refl).
Defined.

(** ** The label mapping *)

(** [initialize] is lines 36-77 followed by lines 79-83. *)
Lemma initialize_split w ctx s :
  initialize w ctx s =
  bind (select_and_load w ctx) (fun _ => finish_initialize w ctx) s.
Proof.
  symmetry. unfold select_and_load, initialize.
  rewrite bind_assoc. apply bind_ext. intros _ s1.
  now rewrite bind_assoc.
Qed.

(** C9: once the model is loaded (lines 36-77 have returned), [initialize]
    always goes on to the label mapping at [model_dir/index_to_name.json],
    whatever path was taken to load the model. When no such file exists, all
    that follows is the look-up of that path: [initialize] returns with
    [mapping] None and [initialized] true, and nothing is raised for the
    missing file. When the file exists it is read: what is read is stored as
    [mapping] and [initialize] returns, or the exception of the read is the
    exception of [initialize]. When lines 36-77 raise, [initialize] raises
    the same and the mapping is not looked for. *)
Theorem label_mapping_always_attempted w ctx s :
  match select_and_load w ctx s with
  | (s1, Raised e) => initialize w ctx s = (s1, Raised e)
  | (s1, Returned _) =>
      if os_path_isfile w (mapping_file_path ctx)
      then
        match read_label_file w (mapping_file_path ctx) with
        | inr labels =>
            initialize w ctx s =
            (mkSt (set_initialized true (set_mapping (Some labels) (self s1)))
                  (trace s1 ++ [EvIsFile (mapping_file_path ctx);
                                EvReadLabelFile (mapping_file_path ctx)]),
             Returned tt)
        | inl e =>
            initialize w ctx s =
            (mkSt (self s1)
                  (trace s1 ++ [EvIsFile (mapping_file_path ctx);
                                EvReadLabelFile (mapping_file_path ctx)]),
             Raised (Propagated e))
        end
      else
        initialize w ctx s =
        (mkSt (set_initialized true (set_mapping None (self s1)))
              (trace s1 ++ [EvIsFile (mapping_file_path ctx)]),
         Returned tt)
  end.
Proof.
  destruct (select_and_load w ctx s) as [s1 [[]|e]] eqn:Hload;
    [| rewrite initialize_split; now apply bind_raised].
  assert (Hrun : initialize w ctx s = finish_initialize w ctx s1).
  { rewrite initialize_split. exact (bind_returned _ _ _ _ _ Hload). }
  rewrite Hrun.
  unfold finish_initialize, load_label_mapping, isfile. unfold_monad.
  fold (mapping_file_path ctx). cbn [self trace].
  destruct (os_path_isfile w (mapping_file_path ctx)); cbn [negb].
  - destruct (read_label_file w (mapping_file_path ctx));
      cbn [self trace]; rewrite <- app_assoc; reflexivity.
  - reflexivity.
Qed.

Lemma label_mapping_always_attempted_witness :
  (snd (initialize Example.stocked Example.native_script Example.fresh)
   = Returned tt
   /\ mapping (self (fst (initialize Example.stocked Example.native_script
                                     Example.fresh))) = None)
  /\ initialize Example.labelled Example.foreign_script Example.fresh =
     (mkSt (set_initialized true
              (set_mapping (Some [("0", "cat"); ("1", "dog")])
                 (self (fst (select_and_load Example.labelled
                                             Example.foreign_script
                                             Example.fresh)))))
           (trace (fst (select_and_load Example.labelled Example.foreign_script
                                        Example.fresh))
            ++ [EvIsFile "/models/index_to_name.json";
                EvReadLabelFile "/models/index_to_name.json"]),
      Returned tt).
Proof.
  split.
  - pose proof (label_mapping_always_attempted Example.stocked
                  Example.native_script Example.fresh) as H.
    destruct (select_and_load Example.stocked Example.native_script
                              Example.fresh) as [s1 [[]|e]] eqn:Hload;
      [| discriminate Hload].
    change (os_path_isfile Example.stocked
              (mapping_file_path Example.native_script)) with false in H.
    cbv iota in H. rewrite H. split; reflexivity.
  - pose proof (label_mapping_always_attempted Example.labelled
                  Example.foreign_script Example.fresh) as H.
    destruct (select_and_load Example.labelled Example.foreign_script
                              Example.fresh) as [s1 [[]|e]] eqn:Hload;
      [| discriminate Hload].
    exact H.
Defined.
